(** * raven-go: the HTTP request snapshot and the panic-reporting handlers

    A shallow embedding of [http.go]: the redaction of query parameters and
    headers ([sanitizeValues], [AddSanitizeField]), the request snapshot
    ([NewHttp]) and the two wrappers around a request handler
    ([RecoveryHandler], [ReportHandler]).

    Go maps are [gmap]s, Go strings are Rocq strings (sequences of bytes),
    the objects reached through pointers ([*http.Request], the response
    writer, the package variable [querySecretFields]) live in an explicit
    state that every function takes and returns. *)

From Stdlib Require Import String Ascii NArith.
From stdpp Require Import gmap strings list fin_maps sorting.

#[local] Set Warnings "-clear-no-such-hyp".

(** [map[string][]string], the type behind [url.Values] and [http.Header]. *)
Abbreviation Values := (gmap string (list string)).

(** ** Go's standard library *)

(** [strings.Contains(s, substr)]: [substr] occurs in [s] as a contiguous run
    of bytes. The empty string occurs in every string. *)
Fixpoint Contains (s substr : string) : bool :=
  String.prefix substr s ||
  match s with
  | EmptyString => false
  | String _ s' => Contains s' substr
  end.

(** [strings.Join(elems, sep)]. *)
Definition Join (elems : list string) (sep : string) : string :=
  String.concat sep elems.

(** The functions of the standard library whose code the embedding does not
    spell out. The development is parametric in them: every theorem holds
    whatever they compute. *)
Class GoLib := {
  (** [strings.ToLower] *)
  ToLower : string → string;
  (** [url.ParseQuery], which the method [Query] of [url.URL] applies to
      [RawQuery]; the result is a fresh map on every call *)
  ParseQuery : string → Values;
  (** [url.Values.Encode] *)
  Encode : Values → string;
  (** [net.SplitHostPort]; [None] stands for [err != nil] *)
  SplitHostPort : string → option (string * string);
}.

(** ** Redaction *)

Section Redaction.
Context {lib : GoLib}.

(** [var querySecretFields = []string{...}], the initial value of the
    package variable. *)
Definition querySecretFields : list string :=
  ["password"; "passphrase"; "passwd"; "secret"].

(** The body of the inner loop of [sanitizeValues]:
    [if strings.Contains(strings.ToLower(field), strings.ToLower(keyword))
       { query[field] = []string{"********"} }]. *)
Definition sanitizeField (keyword : string) (query : Values) (field : string)
    : Values :=
  if Contains (ToLower field) (ToLower keyword)
  then <[field := ["********"]]> query
  else query.

(** [for field := range query { ... }], run over the keys in the order
    [fields]. Go leaves the order of a [range] over a map unspecified;
    [rangeFields_Permutation] shows that it does not matter here. *)
Definition rangeFields (keyword : string) (fields : list string)
    (query : Values) : Values :=
  foldl (sanitizeField keyword) query fields.

(** The keys a [range] over [query] visits. *)
Definition keys (query : Values) : list string := (map_to_list query).*1.

(** [sanitizeValues(query)], with the package variable it reads as its
    first argument. The map is updated in place and returned: the result
    is also the new content of the map the caller passed. *)
Definition sanitizeValues (fields : list string) (query : Values) : Values :=
  foldl (λ query keyword, rangeFields keyword (keys query) query)
        query fields.

(** [AddSanitizeField(field)]:
    [querySecretFields = append(querySecretFields, field)]. *)
Definition AddSanitizeField (field : string) (fields : list string)
    : list string :=
  fields ++ [field].

(** The key [field] matches one of the fragments [fields]. *)
Definition isSecret (fields : list string) (field : string) : bool :=
  existsb (λ keyword, Contains (ToLower field) (ToLower keyword)) fields.

(** What redaction does to the value list stored under [field]. *)
Definition redact (fields : list string) (field : string)
    (v : list string) : list string :=
  if isSecret fields field then ["********"] else v.
End Redaction.

(** ** The request and its snapshot *)

(** The packages [crypto/tls], [net/url] and [net/http], as far as [NewHttp]
    reads them. *)
Module tls.
(** [tls.ConnectionState]; [NewHttp] only tests the pointer to it against
    [nil]. *)
Record ConnectionState := { HandshakeComplete : bool }.
End tls.

Module url.
(** [url.URL] *)
Record URL := { Path : string; RawQuery : string }.
End url.

Module http.
(** [http.Request]. [TLS] is a pointer: [None] is [nil]. *)
Record Request := {
  Method : string;
  URL : url.URL;
  Header : Values;
  Host : string;
  RemoteAddr : string;
  TLS : option tls.ConnectionState;
}.

(** [req.Header = header], the assignment through the pointer [req]. *)
Definition set_Header (header : Values) (req : Request) : Request :=
  {| Method := Method req; URL := URL req; Header := header;
     Host := Host req; RemoteAddr := RemoteAddr req; TLS := TLS req |}.

(** [http.Header.Get(key)], for a [key] that is already in canonical form
    (as ["Cookie"] and ["X-Forwarded-Proto"] are, so that
    [textproto.CanonicalMIMEHeaderKey] returns them unchanged): the first
    value stored under [key], or the empty string. *)
Definition Get (h : Values) (key : string) : string :=
  match h !! key with
  | Some (v :: _) => v
  | _ => EmptyString
  end.

(** [http.StatusInternalServerError] *)
Definition StatusInternalServerError : Z := 500.
End http.

(** The dynamic type of [Http.Data]: [interface{}] holding "either a string
    or map[string]string". *)
Inductive HttpData :=
  | DataString (s : string)
  | DataMap (m : gmap string string).

(** [type Http struct]. The maps [Headers] and [Env] and the interface
    [Data] can be [nil], which is [None] here. *)
Record Http := {
  URL : string;
  Method : string;
  Query : string;
  Cookies : string;
  Headers : option (gmap string string);
  Env : option (gmap string string);
  Data : option HttpData;
}.

(** [func (h *Http) Class() string] *)
Definition Class (h : Http) : string := "request".

Section Snapshot.
Context {lib : GoLib}.

(** [req.TLS != nil || req.Header.Get("X-Forwarded-Proto") == "https"] *)
Definition isHttps (req : http.Request) : bool :=
  bool_decide (http.TLS req ≠ None)
  || String.eqb (http.Get (http.Header req) "X-Forwarded-Proto") "https".

(** The loop [for k, v := range header { h.Headers[k] = strings.Join(v, ",") }]
    started from [make(map[string]string, ...)]. *)
Definition joinHeaders (header : Values) : gmap string string :=
  map_fold (λ k v headers, <[k := Join v ","]> headers) ∅ header.

(** [NewHttp(req)], with the current value of [querySecretFields] as its
    first argument. [req] is a pointer: the second component of the result is
    the request as the caller finds it after the call. [req.URL.Query()]
    builds a new map on each call, so redacting it leaves the request alone;
    [req.Header] is the request's own map, which [sanitizeValues] updates in
    place. *)
Definition NewHttp (fields : list string) (req : http.Request)
    : Http * http.Request :=
  let proto := if isHttps req then "https" else "http" in
  let cookies := http.Get (http.Header req) "Cookie" in
  let query :=
    Encode (sanitizeValues fields (ParseQuery (url.RawQuery (http.URL req)))) in
  let env :=
    match SplitHostPort (http.RemoteAddr req) with
    | Some (addr, port) =>
        Some ({[ "REMOTE_ADDR" := addr; "REMOTE_PORT" := port ]}
                : gmap string string)
    | None => None
    end in
  let header := sanitizeValues fields (http.Header req) in
  ({| Method := http.Method req;
      Cookies := cookies;
      Query := query;
      URL := proto +:+ "://" +:+ http.Host req +:+ url.Path (http.URL req);
      Headers := Some (joinHeaders header);
      Env := env;
      Data := None |},
   http.set_Header header req).
End Snapshot.

(** ** Panics and the reporting client *)

(** [errors.New] *)
Module errors.
Record error := { Error : string }.
Definition New (text : string) : error := {| Error := text |}.
End errors.

(** The rest of the package ([Stacktrace], [Exception] and their
    constructors are declared in other files) and [fmt.Sprint]. *)
Class Raven := {
  (** the non-nil values of type [interface{}] *)
  value : Type;
  (** [fmt.Sprint], of one non-nil operand *)
  Sprint : value → string;
  Stacktrace : Type;
  (** [NewStacktrace(skip, context, appPackagePrefixes)] *)
  NewStacktrace : Z → Z → list string → Stacktrace;
  Exception : Type;
  (** [NewException(err, stacktrace)] *)
  NewException : errors.error → Stacktrace → Exception;
}.

Section Handlers.
Context {lib : GoLib} {raven : Raven}.

(** A value of type [interface{}]. *)
Inductive any :=
  | Nil
  | Val (v : value).

(** Modelled from the spec: [Packet] and [NewPacket] are declared in a file
    of the package other than [http.go]. "Packet: the structured, reportable
    unit submitted to the external reporting pipeline, combining a
    human-readable message, an exception record, and a request context." *)
Record Packet := {
  Message : string;
  PacketException : Exception;
  PacketRequest : Http;
}.

Definition NewPacket (message : string) (exception : Exception) (h : Http)
    : Packet :=
  {| Message := message; PacketException := exception; PacketRequest := h |}.

(** A call of a method of the [http.ResponseWriter]. *)
Inductive ResponseCall :=
  | WriteHeaderCall (statusCode : Z)
  | WriteCall (data : string).

(** What a handler and its wrapper act on: the request behind the pointer
    [r], the calls the response writer [w] has received (oldest first), the
    packets handed to [Capture] with their tags (oldest first), and the
    package variable [querySecretFields]. *)
Record World := {
  request : http.Request;
  response : list ResponseCall;
  captured : list (Packet * option (gmap string string));
  secretFields : list string;
}.

(** How a call ends: it returns, or it panics. [Panicked v] carries the
    value that [recover()] yields. That value is [Nil] after [panic(nil)] in
    the Go versions up to 1.20 and under [GODEBUG=panicnil=1]; otherwise the
    runtime replaces the nil argument by a [*runtime.PanicNilError], which is
    a [Val]. *)
Inductive Outcome (A : Type) :=
  | Returned (a : A)
  | Panicked (v : any).
Arguments Returned {A} a.
Arguments Panicked {A} v.

(** A Go computation: a state transformer that can panic. *)
Definition Go (A : Type) : Type := World → World * Outcome A.

#[local] Instance Go_ret : MRet Go := λ A a w, (w, Returned a).

#[local] Instance Go_bind : MBind Go := λ A B k m w,
  match m w with
  | (w', Returned a) => k a w'
  | (w', Panicked v) => (w', Panicked v)
  end.

(** [panic(v)] *)
Definition panic {A} (v : any) : Go A := λ w, (w, Panicked v).

(** [defer func() { rval := recover(); deferred(rval) }(); body]: the
    deferred function runs when [body] has returned or panicked; its call of
    [recover] yields the value of the panic ([Nil] when there is none) and
    stops the panic, so that the whole ends the way [deferred] ends. *)
Definition deferRecover (deferred : any → Go unit) (body : Go unit)
    : Go unit :=
  λ w,
    let '(w', outcome) := body w in
    deferred (match outcome with Returned _ => Nil | Panicked v => v end) w'.

(** [func(http.ResponseWriter, *http.Request)], applied to the writer and
    the request of the [World]. *)
Definition HandlerFunc : Type := Go unit.

(** [debug.PrintStack()] writes to standard error, which the [World] does not
    record. *)
Definition PrintStack : Go unit := mret ().

(** [NewHttp(r)], on the request of the [World]. *)
Definition NewHttp_r : Go Http := λ w,
  let '(h, r) := NewHttp (secretFields w) (request w) in
  ({| request := r; response := response w; captured := captured w;
      secretFields := secretFields w |}, Returned h).

(** Modelled from the spec: [Capture] is declared in a file of the package
    other than [http.go]. "Outbound, to the reporting pipeline: a call taking
    (message, exceptionRecord, requestContext) and an optional
    tagging/metadata argument, with no meaningful return value consumed by
    this layer." The submission is recorded in the [World]. *)
Definition Capture (packet : Packet) (captureTags : option (gmap string string))
    : Go unit := λ w,
  ({| request := request w; response := response w;
      captured := captured w ++ [(packet, captureTags)];
      secretFields := secretFields w |}, Returned ()).

(** [w.WriteHeader(statusCode)] *)
Definition WriteHeader (statusCode : Z) : Go unit := λ w,
  ({| request := request w;
      response := response w ++ [WriteHeaderCall statusCode];
      captured := captured w; secretFields := secretFields w |}, Returned ()).

(** [AddSanitizeField(field)], on the package variable of the [World]. *)
Definition AddSanitizeField_w (field : string) : Go unit := λ w,
  ({| request := request w; response := response w; captured := captured w;
      secretFields := AddSanitizeField field (secretFields w) |}, Returned ()).

(** The statements both deferred functions share:
    [debug.PrintStack(); rvalStr := fmt.Sprint(rval);
     packet := NewPacket(rvalStr, NewException(errors.New(rvalStr),
                 NewStacktrace(2, 3, nil)), NewHttp(r));
     Capture(packet, nil); w.WriteHeader(http.StatusInternalServerError)]. *)
Definition report (rval : value) : Go unit :=
  PrintStack;;
  let rvalStr := Sprint rval in
  h ← NewHttp_r;
  let packet :=
    NewPacket rvalStr
      (NewException (errors.New rvalStr) (NewStacktrace 2 3 [])) h in
  Capture packet None;;
  WriteHeader http.StatusInternalServerError.

(** [RecoveryHandler(handler)] *)
Definition RecoveryHandler (handler : HandlerFunc) : HandlerFunc :=
  deferRecover
    (λ rval, match rval with
             | Nil => mret ()                                (* rval == nil *)
             | Val v => report v
             end)
    handler.

(** [ReportHandler(handler)] *)
Definition ReportHandler (handler : HandlerFunc) : HandlerFunc :=
  deferRecover
    (λ rval, match rval with
             | Nil => mret ()                                (* rval == nil *)
             | Val v => report v;; panic rval
             end)
    handler.
End Handlers.

Arguments Returned {_ _} a.
Arguments Panicked {_ _} v.

(** ** The library functions on concrete input

    Transcriptions of the four library functions, to run the model on
    concrete requests. [strings.ToLower] is the library's path for strings
    of ASCII bytes only, the others follow the library byte by byte. No
    theorem of the parametric development depends on them. *)

Module golib.
Local Open Scope char_scope.

Definition isUpper (c : ascii) : bool :=
  (65 <=? N_of_ascii c)%N && (N_of_ascii c <=? 90)%N.

(** [c += 'a' - 'A'] *)
Definition lowerByte (c : ascii) : ascii :=
  if isUpper c then ascii_of_N (N_of_ascii c + 32) else c.

(** [strings.ToLower], for a string of ASCII bytes. *)
Fixpoint ToLower (s : string) : string :=
  match s with
  | EmptyString => EmptyString
  | String c s' => String (lowerByte c) (ToLower s')
  end.

(** [strings.IndexByte]; [None] is [-1]. *)
Fixpoint IndexByte (s : string) (c : ascii) : option nat :=
  match s with
  | EmptyString => None
  | String d s' => if Ascii.eqb d c then Some 0 else S <$> IndexByte s' c
  end.

(** [strings.LastIndexByte]; [None] is [-1]. *)
Fixpoint LastIndexByte (s : string) (c : ascii) : option nat :=
  match s with
  | EmptyString => None
  | String d s' =>
      match LastIndexByte s' c with
      | Some i => Some (S i)
      | None => if Ascii.eqb d c then Some 0 else None
      end
  end.

(** [s[lo:hi]] *)
Definition slice (s : string) (lo hi : nat) : string :=
  String.substring lo (hi - lo) s.

(** [net.SplitHostPort(hostport)]; each [None] is one of the function's
    [AddrError]s. *)
Definition SplitHostPort (hostport : string) : option (string * string) :=
  let len := String.length hostport in
  match LastIndexByte hostport ":" with
  | None => None (* missing port in address *)
  | Some i =>
      let bracketed :=
        match hostport with String "[" _ => true | _ => false end in
      let host_j_k :=
        if bracketed then
          match IndexByte hostport "]" with
          | None => None (* missing ']' in address *)
          | Some end_ =>
              if (end_ + 1 =? len)%nat then None (* missing port in address *)
              else if (end_ + 1 =? i)%nat
                   then Some (slice hostport 1 end_, 1, end_ + 1)
              else None (* too many colons, or missing port *)
          end
        else
          let host := slice hostport 0 i in
          if IndexByte host ":" is Some _ then None (* too many colons in address *)
          else Some (host, 0, 0) in
      match host_j_k with
      | None => None
      | Some (host, j, k) =>
          if IndexByte (slice hostport j len) "[" is Some _ then None
          else if IndexByte (slice hostport k len) "]" is Some _ then None
          else Some (host, slice hostport (i + 1) len)
      end
  end.

(** The pieces of [s] between the occurrences of [sep]. *)
Fixpoint Split (s : string) (sep : ascii) : list string :=
  match s with
  | EmptyString => [EmptyString]
  | String c s' =>
      if Ascii.eqb c sep then EmptyString :: Split s' sep
      else match Split s' sep with
           | piece :: pieces => String c piece :: pieces
           | [] => [String c EmptyString]
           end
  end.

(** [strings.Cut(s, sep)], without the flag [found]. *)
Fixpoint Cut (s : string) (sep : ascii) : string * string :=
  match s with
  | EmptyString => (EmptyString, EmptyString)
  | String c s' =>
      if Ascii.eqb c sep then (EmptyString, s')
      else let '(before, after) := Cut s' sep in (String c before, after)
  end.

(** The value of a hexadecimal digit, [unhex]. *)
Definition unhex (c : ascii) : option N :=
  let n := N_of_ascii c in
  if (48 <=? n)%N && (n <=? 57)%N then Some (n - 48)%N
  else if (97 <=? n)%N && (n <=? 102)%N then Some (n - 97 + 10)%N
  else if (65 <=? n)%N && (n <=? 70)%N then Some (n - 65 + 10)%N
  else None.

(** [url.QueryUnescape]; [None] is an [EscapeError]. *)
Fixpoint QueryUnescape (s : string) : option string :=
  match s with
  | EmptyString => Some EmptyString
  | String "%" (String a (String b s')) =>
      match unhex a, unhex b with
      | Some x, Some y =>
          String (ascii_of_N (16 * x + y)) <$> QueryUnescape s'
      | _, _ => None
      end
  | String "%" _ => None
  | String "+" s' => String " " <$> QueryUnescape s'
  | String c s' => String c <$> QueryUnescape s'
  end.

(** [url.ParseQuery]: the pairs that fail to parse are skipped. *)
Definition ParseQuery (query : string) : Values :=
  foldl (λ (m : Values) pair,
           if IndexByte pair ";" is Some _ then m
           else if String.eqb pair EmptyString then m
           else
             let '(key, value) := Cut pair "=" in
             match QueryUnescape key, QueryUnescape value with
             | Some key, Some value =>
                 <[key := (default [] (m !! key) ++ [value])%list]> m
             | _, _ => m
             end)
        ∅ (Split query "&").

(** The bytes that [url.QueryEscape] leaves as they are. *)
Definition unreserved (c : ascii) : bool :=
  let n := N_of_ascii c in
  ((97 <=? n)%N && (n <=? 122)%N) || ((65 <=? n)%N && (n <=? 90)%N)
  || ((48 <=? n)%N && (n <=? 57)%N)
  || Ascii.eqb c "-" || Ascii.eqb c "_" || Ascii.eqb c "." || Ascii.eqb c "~".

Definition upperhex (n : N) : ascii :=
  if (n <? 10)%N then ascii_of_N (48 + n) else ascii_of_N (65 + (n - 10)).

(** [url.QueryEscape] *)
Fixpoint QueryEscape (s : string) : string :=
  match s with
  | EmptyString => EmptyString
  | String c s' =>
      if unreserved c then String c (QueryEscape s')
      else if Ascii.eqb c " " then String "+" (QueryEscape s')
      else String "%" (String (upperhex (N_of_ascii c / 16))
                         (String (upperhex (N_of_ascii c mod 16))
                            (QueryEscape s')))
  end.

(** [url.Values.Encode]: the keys in sorted order, each value as
    [key=value], joined with [&]. *)
Definition Encode (v : Values) : string :=
  let keys := merge_sort String.le (map_to_list v).*1 in
  Join (k ← keys;
        (λ value, QueryEscape k +:+ "=" +:+ QueryEscape value)
          <$> default [] (v !! k))
       "&".
End golib.

(** The library, as transcribed above. *)
Definition golib_instance : GoLib := {|
  ToLower := golib.ToLower;
  ParseQuery := golib.ParseQuery;
  Encode := golib.Encode;
  SplitHostPort := golib.SplitHostPort;
|}.

(** A client to run the handlers with: the values a handler panics with are
    strings and errors, which [fmt.Sprint] prints as their text; a stack
    trace and an exception keep the arguments they were made from. *)
Module client.
Inductive value :=
  | String_ (s : string)
  | Error_ (err : errors.error).

Definition Sprint (v : value) : string :=
  match v with
  | String_ s => s
  | Error_ err => errors.Error err
  end.

Record Stacktrace := {
  skip : Z;
  context : Z;
  appPackagePrefixes : list string;
}.

Record Exception := {
  err : errors.error;
  stacktrace : Stacktrace;
}.
End client.

Definition client_instance : Raven := {|
  value := client.value;
  Sprint := client.Sprint;
  Stacktrace := client.Stacktrace;
  NewStacktrace := client.Build_Stacktrace;
  Exception := client.Exception;
  NewException := client.Build_Exception;
|}.

(** ** Concrete requests and handlers *)

(** A login request over plain HTTP from [203.0.113.5]. *)
Definition login_request : http.Request := {|
  http.Method := "POST";
  http.URL := {| url.Path := "/login";
                 url.RawQuery := "user=bob&Password=hunter2" |};
  http.Header := {[ "Accept" := ["text/html"; "text/plain"];
                    "Cookie" := ["session=abc; password=x"];
                    "X-Api-Secret" := ["s3cr3t"] ]};
  http.Host := "example.com";
  http.RemoteAddr := "203.0.113.5:54321";
  http.TLS := None;
|}.

(** The state in which a handler is about to serve [login_request]. *)
Definition serving : World (raven := client_instance) := {|
  request := login_request;
  response := [];
  captured := [];
  secretFields := querySecretFields;
|}.

(** [func(w, r) { panic("boom") }] *)
Definition boom : HandlerFunc (raven := client_instance) :=
  panic (Val (raven := client_instance) (client.String_ "boom")).


(** [func(w, r) { w.WriteHeader(200) }] *)
Definition ok : HandlerFunc (raven := client_instance) := WriteHeader 200.

(** A request as a client builds it, where the empty method stands for GET. *)
Definition client_request : http.Request := {|
  http.Method := EmptyString;
  http.URL := {| url.Path := "/"; url.RawQuery := EmptyString |};
  http.Header := ∅;
  http.Host := "example.com";
  http.RemoteAddr := EmptyString;
  http.TLS := None;
|}.

(** The fields of a form, as [ParseQuery] returns them. *)
Definition passphrase_form : Values :=
  {[ "UserPassphrase" := ["c"; "d"]; "user" := ["bob"] ]}.

(** Headers that carry a token next to a password. *)
Definition token_header : Values :=
  {[ "X-Auth-TOKEN" := ["t"]; "X-Password" := ["p"]; "Accept" := ["*/*"] ]}.

(** ** The order of a range over a map *)

Section RangeOrder.
Context {lib : GoLib}.

(** [sanitizeValues(query)] under a runtime that, in pass number [pass] of
    the outer loop, lets [range query] visit the keys in the order
    [order pass query]. *)
Fixpoint sanitizeValuesIn (order : nat → Values → list string) (pass : nat)
    (fields : list string) (query : Values) : Values :=
  match fields with
  | [] => query
  | keyword :: fields =>
      sanitizeValuesIn order (S pass) fields
        (rangeFields keyword (order pass query) query)
  end.
End RangeOrder.

(** A runtime that walks the keys backwards in every second pass. *)
Definition alternating (pass : nat) (query : Values) : list string :=
  if Nat.even pass then reverse (keys query) else keys query.

(** The initial fragments in another order and case, one of them twice. *)
Definition shuffled_fields : list string :=
  ["SECRET"; "passwd"; "PassPhrase"; "password"; "secret"].

(** Two forms that differ in the password only. *)
Definition form_hunter2 : Values :=
  {[ "password" := ["hunter2"]; "user" := ["bob"] ]}.

Definition form_swordfish : Values :=
  {[ "password" := ["swordfish"]; "user" := ["bob"] ]}.

(** ** Maps that differ in secret values only *)

Section SameButSecrets.
Context {lib : GoLib}.

(** Two maps have the same keys and hold the same value lists under the keys
    that match no fragment. *)
Definition sameButSecrets (fields : list string) (query1 query2 : Values)
    : Prop :=
  dom query1 = dom query2 ∧
  ∀ k, isSecret fields k = false → query1 !! k = query2 !! k.
End SameButSecrets.

(** [login_request] with another password and another API secret. *)
Definition login_request_swordfish : http.Request := {|
  http.Method := "POST";
  http.URL := {| url.Path := "/login";
                 url.RawQuery := "user=bob&Password=swordfish" |};
  http.Header := {[ "Accept" := ["text/html"; "text/plain"];
                    "Cookie" := ["session=abc; password=x"];
                    "X-Api-Secret" := ["0th3r"] ]};
  http.Host := "example.com";
  http.RemoteAddr := "203.0.113.5:54321";
  http.TLS := None;
|}.

(** * Theorems *)

(** ** Properties of [Contains] *)

Lemma prefix_spec (p s : string) :
  String.prefix p s = true ↔ ∃ post, s = p +:+ post.
Proof.
  revert s. induction p as [|c p IH]; intros [|d s]; simpl.
  - split; [by exists EmptyString | done].
  - split; [by exists (String d s) | done].
  - split; [done | by intros [? ?]].
  - destruct (Ascii.ascii_dec c d) as [->|Hne].
    + rewrite IH. split; intros [post E]; exists post;
        [by rewrite E | by injection E].
    + split; [done | intros [post E]; by injection E].
Qed.

Lemma Contains_spec (s substr : string) :
  Contains s substr = true ↔ ∃ pre post, s = pre +:+ substr +:+ post.
Proof.
  induction s as [|c s IH]; cbn [Contains]; rewrite orb_true_iff, prefix_spec.
  - split.
    + intros [[post E]|?]; [|done]. by exists EmptyString, post.
    + intros (pre & post & E). left.
      destruct pre; simpl in E; [eauto | done].
  - rewrite IH. split.
    + intros [[post E]|(pre & post & E)].
      * by exists EmptyString, post.
      * exists (String c pre), post. simpl. by rewrite E.
    + intros (pre & post & E). destruct pre as [|d pre]; simpl in E.
      * left. eauto.
      * right. exists pre, post. by injection E.
Qed.

Lemma Contains_empty (s : string) : Contains s EmptyString = true.
Proof. destruct s; reflexivity. Qed.

(** ** Properties of the redaction *)

Section RedactionFacts.
Context {lib : GoLib}.

Implicit Types (query : Values) (fields : list string) (k keyword : string).

Lemma elem_of_keys query k : k ∈ keys query ↔ is_Some (query !! k).
Proof.
  unfold keys. rewrite list_elem_of_fmap. split.
  - intros ([k' v] & -> & Hin). apply elem_of_map_to_list in Hin. eauto.
  - intros [v Hv]. exists (k, v). split; [done|].
    by apply elem_of_map_to_list.
Qed.

Lemma rangeFields_lookup keyword (ks : list string) query k :
  rangeFields keyword ks query !! k =
    if decide (k ∈ ks ∧ Contains (ToLower k) (ToLower keyword) = true)
    then Some ["********"] else query !! k.
Proof.
  unfold rangeFields. revert query.
  induction ks as [|f ks IH]; intros query; cbn [foldl].
  - rewrite decide_False; [done|]. intros [Hin _]. by apply elem_of_nil in Hin.
  - rewrite IH. unfold sanitizeField.
    destruct (Contains (ToLower k) (ToLower keyword)) eqn:Ek.
    + destruct (decide (k ∈ ks)) as [Hin|Hin].
      * rewrite !decide_True; [done | set_solver | done].
      * destruct (decide (k = f)) as [->|Hne].
        -- rewrite Ek, lookup_insert_eq, decide_False by naive_solver.
           rewrite decide_True; [done | set_solver].
        -- rewrite !decide_False by set_solver.
           destruct (Contains (ToLower f) _); [by rewrite lookup_insert_ne|done].
    + rewrite !decide_False by naive_solver.
      destruct (decide (k = f)) as [->|Hne]; [by rewrite Ek|].
      destruct (Contains (ToLower f) _); [by rewrite lookup_insert_ne|done].
Qed.

(** One pass of the outer loop: every key of the map that contains the
    keyword is redacted, nothing else changes. *)
Lemma range_lookup keyword query k :
  rangeFields keyword (keys query) query !! k =
    (λ v, if Contains (ToLower k) (ToLower keyword) then ["********"] else v)
      <$> query !! k.
Proof.
  rewrite rangeFields_lookup.
  destruct (query !! k) as [v|] eqn:Hk; simpl.
  - destruct (Contains _ _) eqn:E.
    + rewrite decide_True; [done|]. split; [|done].
      apply elem_of_keys. rewrite Hk. eauto.
    + rewrite decide_False; [done|]. naive_solver.
  - rewrite decide_False; [done|]. intros [Hin _].
    apply elem_of_keys in Hin. rewrite Hk in Hin. by destruct Hin.
Qed.

(** The order in which the runtime enumerates the keys is irrelevant. *)
Lemma rangeFields_Permutation keyword (ks : list string) query :
  ks ≡ₚ keys query →
  rangeFields keyword ks query = rangeFields keyword (keys query) query.
Proof.
  intros Hp. apply map_eq. intros k. rewrite !rangeFields_lookup.
  repeat case_decide; try done; exfalso; rewrite Hp in *; naive_solver.
Qed.

Lemma sanitizeValues_nil query : sanitizeValues [] query = query.
Proof. reflexivity. Qed.

Lemma sanitizeValues_cons keyword fields query :
  sanitizeValues (keyword :: fields) query =
    sanitizeValues fields (rangeFields keyword (keys query) query).
Proof. reflexivity. Qed.

Lemma sanitizeValues_app fields1 fields2 query :
  sanitizeValues (fields1 ++ fields2) query =
    sanitizeValues fields2 (sanitizeValues fields1 query).
Proof. unfold sanitizeValues. by rewrite foldl_app. Qed.

Lemma sanitizeValues_lookup fields query k :
  sanitizeValues fields query !! k = redact fields k <$> query !! k.
Proof.
  unfold redact, isSecret. revert query.
  induction fields as [|keyword fields IH]; intros query.
  - rewrite sanitizeValues_nil. simpl. by destruct (query !! k).
  - rewrite sanitizeValues_cons, IH, range_lookup. simpl.
    destruct (query !! k) as [v|]; simpl; [|done].
    destruct (Contains (ToLower k) (ToLower keyword)); simpl; [|done].
    by destruct (existsb _ fields).
Qed.

Lemma isSecret_spec fields k :
  isSecret fields k = true ↔
    ∃ keyword pre post, keyword ∈ fields ∧
      ToLower k = pre +:+ ToLower keyword +:+ post.
Proof.
  unfold isSecret. rewrite existsb_exists. split.
  - intros (keyword & Hin & Hc). apply Contains_spec in Hc as (pre & post & E).
    exists keyword, pre, post. by rewrite list_elem_of_In.
  - intros (keyword & pre & post & Hin & E). exists keyword.
    rewrite <- list_elem_of_In. split; [done|].
    apply Contains_spec. eauto.
Qed.

Lemma isSecret_app fields1 fields2 k :
  isSecret (fields1 ++ fields2) k = isSecret fields1 k || isSecret fields2 k.
Proof. unfold isSecret. apply existsb_app. Qed.

Lemma sanitizeValues_dom fields query :
  dom (sanitizeValues fields query) = dom query.
Proof.
  apply set_eq. intros k.
  by rewrite !elem_of_dom, sanitizeValues_lookup, fmap_is_Some.
Qed.
End RedactionFacts.

(** ** Properties of the snapshot *)

Section SnapshotFacts.
Context {lib : GoLib}.

Implicit Types (req : http.Request) (fields : list string).

Lemma joinHeaders_lookup (header : Values) (k : string) :
  joinHeaders header !! k = (λ v, Join v ",") <$> header !! k.
Proof.
  unfold joinHeaders.
  apply (map_fold_weak_ind
           (λ r m, r !! k = (λ v, Join v ",") <$> m !! k)); [done|].
  intros i x m r Hi IH. destruct (decide (i = k)) as [->|Hne].
  - by rewrite !lookup_insert_eq.
  - by rewrite !lookup_insert_ne.
Qed.

Lemma isHttps_spec req :
  isHttps req = true ↔
    http.TLS req ≠ None ∨
    http.Get (http.Header req) "X-Forwarded-Proto" = "https".
Proof.
  unfold isHttps. by rewrite orb_true_iff, bool_decide_eq_true, String.eqb_eq.
Qed.

(** The snapshot never touches anything of the request but its header map. *)
Lemma NewHttp_frame fields req :
  let req' := (NewHttp fields req).2 in
  http.Method req' = http.Method req ∧ http.URL req' = http.URL req ∧
  http.Host req' = http.Host req ∧ http.RemoteAddr req' = http.RemoteAddr req ∧
  http.TLS req' = http.TLS req.
Proof. done. Qed.

(** What the snapshot leaves in the request's header map. *)
Lemma NewHttp_Header fields req :
  http.Header (NewHttp fields req).2 = sanitizeValues fields (http.Header req).
Proof. done. Qed.

(** The [headers] of the snapshot: each value list of the redacted header,
    joined with commas. *)
Lemma NewHttp_Headers fields req :
  Headers (NewHttp fields req).1 =
    Some ((λ v, Join v ",") <$> sanitizeValues fields (http.Header req)).
Proof.
  simpl. f_equal. apply map_eq. intros k.
  by rewrite joinHeaders_lookup, lookup_fmap.
Qed.
End SnapshotFacts.

(** ** The redaction policy *)

Section RedactionClaims.
Context {lib : GoLib}.

Implicit Types (query : Values) (fields : list string) (k keyword : string).

(** C1. For every map of value lists and every state of the fragment list,
    [sanitizeValues] replaces the whole value list of each key of the map
    whose lowercased name contains a lowercased fragment by the one-element
    list ["********"], leaves every other value list as it is, and adds or
    removes no key. Key and fragment are compared after [ToLower], so the
    match ignores case on both sides. *)
Theorem sanitizeValues_redacts_matching_keys fields query :
  (∀ k v keyword pre post,
      query !! k = Some v → keyword ∈ fields →
      ToLower k = pre +:+ ToLower keyword +:+ post →
      sanitizeValues fields query !! k = Some ["********"]) ∧
  (∀ k,
      (¬ ∃ keyword pre post,
           keyword ∈ fields ∧ ToLower k = pre +:+ ToLower keyword +:+ post) →
      sanitizeValues fields query !! k = query !! k) ∧
  dom (sanitizeValues fields query) = dom query.
Proof.
  split; [|split].
  - intros k v keyword pre post Hk Hin E.
    rewrite sanitizeValues_lookup, Hk. unfold redact.
    replace (isSecret fields k) with true; [done|].
    symmetry. apply isSecret_spec. eauto 6.
  - intros k Hno. rewrite sanitizeValues_lookup. unfold redact.
    destruct (isSecret fields k) eqn:E.
    + exfalso. apply Hno. by apply isSecret_spec.
    + by destruct (query !! k).
  - apply sanitizeValues_dom.
Qed.

(** C10. [sanitizeValues] is idempotent for a fixed fragment list, and the
    keys of its result are the keys of its argument. *)
Theorem sanitizeValues_idempotent fields query :
  sanitizeValues fields (sanitizeValues fields query)
    = sanitizeValues fields query ∧
  dom (sanitizeValues fields query) = dom query.
Proof.
  split; [|apply sanitizeValues_dom].
  apply map_eq. intros k. rewrite !sanitizeValues_lookup.
  destruct (query !! k) as [v|]; simpl; [|done].
  unfold redact. by destruct (isSecret fields k).
Qed.

(** C6. Registering a fragment keeps every fragment registered so far, in
    its place; every key redacted before the registration is redacted after
    it, and so is every key of the map whose lowercased name contains the
    (lowercased) new fragment. *)
Theorem AddSanitizeField_monotonic field fields query :
  (∀ i keyword,
      fields !! i = Some keyword →
      AddSanitizeField field fields !! i = Some keyword) ∧
  (∀ k,
      sanitizeValues fields query !! k = Some ["********"] →
      sanitizeValues (AddSanitizeField field fields) query !! k
        = Some ["********"]) ∧
  (∀ k v pre post,
      query !! k = Some v →
      ToLower k = pre +:+ ToLower field +:+ post →
      sanitizeValues (AddSanitizeField field fields) query !! k
        = Some ["********"]).
Proof.
  unfold AddSanitizeField. split; [|split].
  - intros i keyword Hi. by apply lookup_app_l_Some.
  - intros k Hk. rewrite sanitizeValues_app, sanitizeValues_lookup, Hk.
    simpl. unfold redact. by destruct (isSecret [field] k).
  - intros k v pre post Hk E.
    rewrite sanitizeValues_lookup, Hk. simpl. unfold redact.
    rewrite isSecret_app.
    replace (isSecret [field] k) with true; [by rewrite orb_true_r|].
    symmetry. apply isSecret_spec. exists field, pre, post.
    split; [set_solver | done].
Qed.
End RedactionClaims.

(** ** The snapshot *)

Section SnapshotClaims.
Context {lib : GoLib}.

Implicit Types (req : http.Request) (fields : list string).

(** C5. The [url] of the snapshot is the scheme, ["://"], the host and the
    path, and nothing after the path; the scheme is ["https"] exactly when
    the request has a TLS connection state or its [X-Forwarded-Proto] header
    is ["https"], and ["http"] otherwise. *)
Theorem NewHttp_URL fields req :
  URL (NewHttp fields req).1 =
    (if decide (http.TLS req ≠ None ∨
                http.Get (http.Header req) "X-Forwarded-Proto" = "https")
     then "https" else "http")
    +:+ "://" +:+ http.Host req +:+ url.Path (http.URL req).
Proof.
  simpl. f_equal. case_decide as Hd.
  - apply isHttps_spec in Hd. by rewrite Hd.
  - destruct (isHttps req) eqn:E; [|done].
    exfalso. apply Hd. by apply isHttps_spec.
Qed.

(** C7. The [env] of the snapshot has exactly the two entries [REMOTE_ADDR]
    and [REMOTE_PORT] when the peer address splits into host and port, and is
    absent when it does not; [NewHttp] returns its snapshot in both cases. *)
Theorem NewHttp_Env fields req :
  match SplitHostPort (http.RemoteAddr req) with
  | Some (addr, port) =>
      ∃ env : gmap string string,
        Env (NewHttp fields req).1 = Some env ∧
        env !! "REMOTE_ADDR" = Some addr ∧
        env !! "REMOTE_PORT" = Some port ∧
        dom env = {[ "REMOTE_ADDR"; "REMOTE_PORT" ]}
  | None => Env (NewHttp fields req).1 = None
  end.
Proof.
  simpl. destruct (SplitHostPort (http.RemoteAddr req)) as [[addr port]|];
    [|done].
  eexists. split; [done|]. split; [done|]. split; [done|].
  by rewrite dom_insert_L, dom_singleton_L.
Qed.

(** C8. The [cookies] of the snapshot are the [Cookie] header of the request
    as it is when [NewHttp] is called, whatever fragments are registered: no
    fragment list makes the snapshot differ in that field. *)
Theorem NewHttp_Cookies_verbatim fields req :
  Cookies (NewHttp fields req).1 = http.Get (http.Header req) "Cookie" ∧
  ∀ fields', Cookies (NewHttp fields' req).1 = Cookies (NewHttp fields req).1.
Proof. done. Qed.

(** C9, as the code has it. The [url] of the snapshot is never empty, and its
    [method] is the method of the request, unchanged. *)
Theorem NewHttp_URL_nonempty_Method_copied fields req :
  0 < String.length (URL (NewHttp fields req).1) ∧
  Method (NewHttp fields req).1 = http.Method req.
Proof.
  split; [|done]. simpl. destruct (isHttps req); simpl; lia.
Qed.
End SnapshotClaims.

(** ** The handlers *)

Section HandlerClaims.
Context {lib : GoLib} {raven : Raven}.

Implicit Types (handler : HandlerFunc) (w : World).

(** The deferred statements submit one packet, whose message is the printed
    value, then write the status 500, and return. *)
Lemma report_spec (v : value) w :
  ∃ packet w',
    report v w = (w', Returned ()) ∧
    captured w' = captured w ++ [(packet, None)] ∧
    Message packet = Sprint v ∧
    PacketRequest packet = (NewHttp (secretFields w) (request w)).1 ∧
    response w' = response w ++ [WriteHeaderCall 500] ∧
    request w' = (NewHttp (secretFields w) (request w)).2 ∧
    secretFields w' = secretFields w.
Proof.
  unfold report, PrintStack, NewHttp_r, Capture, WriteHeader.
  unfold mbind, mret, Go_bind, Go_ret.
  destruct (NewHttp (secretFields w) (request w)) as [h r] eqn:E. simpl.
  eexists _, _. split; [reflexivity|]. by repeat split.
Qed.



(** When the handler returns, [ReportHandler] returns as well and leaves the
    state as the handler left it. *)
Lemma ReportHandler_returned handler w w1 :
  handler w = (w1, Returned ()) → ReportHandler handler w = (w1, Returned ()).
Proof. intros Hh. unfold ReportHandler, deferRecover. by rewrite Hh. Qed.
End HandlerClaims.

(** ** Further properties of the redaction *)

Section RedactionProperties.
Context {lib : GoLib}.

Implicit Types (query : Values) (fields : list string) (k keyword : string).

(** A key matches when its lowered name contains one of the lowered
    fragments: the fragments enter only through the set of their lowered
    forms. *)
Lemma isSecret_lowered fields k :
  isSecret fields k = true ↔
    ∃ lowered, lowered ∈ ToLower <$> fields ∧
      Contains (ToLower k) lowered = true.
Proof.
  unfold isSecret. rewrite existsb_exists. split.
  - intros (keyword & Hin & Hc). exists (ToLower keyword). split; [|done].
    apply list_elem_of_fmap. exists keyword. by rewrite list_elem_of_In.
  - intros (lowered & Hin & Hc).
    apply list_elem_of_fmap in Hin as (keyword & -> & Hin).
    exists keyword. by rewrite <- list_elem_of_In.
Qed.

Lemma isSecret_same_lowered fields1 fields2 k :
  (∀ lowered, lowered ∈ ToLower <$> fields1 ↔ lowered ∈ ToLower <$> fields2) →
  isSecret fields1 k = isSecret fields2 k.
Proof.
  intros Hsame. apply eq_true_iff_eq. rewrite !isSecret_lowered.
  split; intros (lowered & Hin & Hc); exists lowered;
    (split; [by apply Hsame | done]).
Qed.

Lemma sanitizeValues_same_lowered fields1 fields2 query :
  (∀ lowered, lowered ∈ ToLower <$> fields1 ↔ lowered ∈ ToLower <$> fields2) →
  sanitizeValues fields1 query = sanitizeValues fields2 query.
Proof.
  intros Hsame. apply map_eq. intros k.
  rewrite !sanitizeValues_lookup. unfold redact.
  by rewrite (isSecret_same_lowered fields1 fields2).
Qed.

(** The maps that a pass leaves as they are. *)
Lemma sanitizeValues_fixed fields query :
  sanitizeValues fields query = query ↔
    ∀ k v, query !! k = Some v → isSecret fields k = true → v = ["********"].
Proof.
  split.
  - intros Hfix k v Hk Hs.
    assert (sanitizeValues fields query !! k = Some v) as Hl by by rewrite Hfix.
    rewrite sanitizeValues_lookup, Hk in Hl. simpl in Hl. unfold redact in Hl.
    rewrite Hs in Hl. by injection Hl.
  - intros Hall. apply map_eq. intros k. rewrite sanitizeValues_lookup.
    destruct (query !! k) as [v|] eqn:Hk; simpl; [|done].
    unfold redact. destruct (isSecret fields k) eqn:Hs; [|done].
    by rewrite (Hall k v Hk Hs).
Qed.

(** X1. Whatever order the keys of the map are visited in, in each pass of
    the outer loop, the result is the same map. *)
Theorem sanitizeValues_any_order (order : nat → Values → list string)
    pass fields query :
  (∀ n q, order n q ≡ₚ keys q) →
  sanitizeValuesIn order pass fields query = sanitizeValues fields query.
Proof.
  intros Horder. revert pass query.
  induction fields as [|keyword fields IH]; intros pass query; [done|].
  cbn [sanitizeValuesIn]. rewrite sanitizeValues_cons, IH.
  by rewrite (rangeFields_Permutation keyword (order pass query)).
Qed.

(** X2. The result depends on the fragment list only through the set of the
    lowered fragments: the order of the fragments, repeated fragments and the
    case of their letters make no difference. *)
Theorem sanitizeValues_fragment_set fields1 fields2 query :
  (∀ lowered, lowered ∈ ToLower <$> fields1 ↔ lowered ∈ ToLower <$> fields2) →
  sanitizeValues fields1 query = sanitizeValues fields2 query.
Proof. apply sanitizeValues_same_lowered. Qed.

(** X3. Registering a fragment that is already registered, in whatever case,
    changes no redaction. *)
Theorem AddSanitizeField_again field fields query :
  ToLower field ∈ ToLower <$> fields →
  sanitizeValues (AddSanitizeField field fields) query
    = sanitizeValues fields query.
Proof.
  intros Hin. apply sanitizeValues_same_lowered. intros lowered.
  unfold AddSanitizeField. rewrite fmap_app, elem_of_app. simpl.
  rewrite list_elem_of_singleton. naive_solver.
Qed.

(** X4. Once the empty fragment is registered, every value list of every map
    is replaced by the placeholder (for a [ToLower] that maps the empty
    string to itself, as the library's does). *)
Theorem AddSanitizeField_empty_redacts_all fields query :
  ToLower EmptyString = EmptyString →
  sanitizeValues (AddSanitizeField EmptyString fields) query
    = (λ _, ["********"]) <$> query.
Proof.
  intros Hlow. apply map_eq. intros k.
  rewrite sanitizeValues_lookup, lookup_fmap. unfold redact, AddSanitizeField.
  rewrite isSecret_app. unfold isSecret at 2. simpl.
  by rewrite Hlow, Contains_empty, orb_true_r.
Qed.

(** X5. [sanitizeValues] returns its argument unchanged exactly when every
    matching key of the map already holds the placeholder; in particular when
    no key matches. *)
Theorem sanitizeValues_unchanged_iff fields query :
  sanitizeValues fields query = query ↔
    ∀ k v, query !! k = Some v → isSecret fields k = true → v = ["********"].
Proof. apply sanitizeValues_fixed. Qed.

Lemma sanitizeValues_agree fields query1 query2 :
  dom query1 = dom query2 →
  (∀ k, isSecret fields k = false → query1 !! k = query2 !! k) →
  sanitizeValues fields query1 = sanitizeValues fields query2.
Proof.
  intros Hdom Hagree. apply map_eq. intros k.
  rewrite !sanitizeValues_lookup. unfold redact.
  destruct (isSecret fields k) eqn:Hs.
  - assert (is_Some (query1 !! k) ↔ is_Some (query2 !! k)) as Hsome.
    { by rewrite <- !elem_of_dom, Hdom. }
    destruct (query1 !! k) as [v1|], (query2 !! k) as [v2|]; simpl; try done.
    + destruct Hsome as [Hsome _]. by destruct Hsome.
    + destruct Hsome as [_ Hsome]. by destruct Hsome.
  - by rewrite (Hagree k Hs).
Qed.

(** X6. The values stored under matching keys do not influence the result:
    two maps with the same keys that agree on the keys that do not match are
    redacted to the same map. *)
Theorem sanitizeValues_hides_secret_values fields query1 query2 :
  dom query1 = dom query2 →
  (∀ k, isSecret fields k = false → query1 !! k = query2 !! k) →
  sanitizeValues fields query1 = sanitizeValues fields query2.
Proof. apply sanitizeValues_agree. Qed.

(** X7. Each key is redacted on its own: redaction commutes with storing a
    value list under a key and with deleting a key. *)
Theorem sanitizeValues_insert_delete fields query k v :
  sanitizeValues fields (<[k := v]> query)
    = <[k := redact fields k v]> (sanitizeValues fields query) ∧
  sanitizeValues fields (delete k query)
    = delete k (sanitizeValues fields query).
Proof.
  split; apply map_eq; intros k'; rewrite !sanitizeValues_lookup.
  - destruct (decide (k = k')) as [->|Hne].
    + by rewrite !lookup_insert_eq.
    + by rewrite !lookup_insert_ne, sanitizeValues_lookup.
  - destruct (decide (k = k')) as [->|Hne].
    + by rewrite !lookup_delete_eq.
    + by rewrite !lookup_delete_ne, sanitizeValues_lookup.
Qed.
(** X15. Redacting in two rounds, with one fragment list and then with
    another, gives the map that one round with both lists gives, whichever
    list comes first. *)
Theorem sanitizeValues_rounds fields1 fields2 query :
  sanitizeValues fields2 (sanitizeValues fields1 query)
    = sanitizeValues (fields1 ++ fields2) query ∧
  sanitizeValues fields1 (sanitizeValues fields2 query)
    = sanitizeValues (fields1 ++ fields2) query.
Proof.
  split; apply map_eq; intros k; rewrite !sanitizeValues_lookup;
    unfold redact; rewrite isSecret_app;
    destruct (query !! k) as [v|]; simpl; try done;
    by destruct (isSecret fields1 k), (isSecret fields2 k).
Qed.
End RedactionProperties.

(** ** Further properties of the snapshot *)

Section SnapshotProperties.
Context {lib : GoLib}.

Implicit Types (req : http.Request) (fields : list string).

Lemma sanitizeValues_twice fields (query : Values) :
  sanitizeValues fields (sanitizeValues fields query)
    = sanitizeValues fields query.
Proof.
  apply sanitizeValues_fixed. intros k v Hk Hs.
  rewrite sanitizeValues_lookup in Hk. unfold redact in Hk. rewrite Hs in Hk.
  destruct (query !! k); simpl in Hk; [by injection Hk | done].
Qed.

(** X8. The [headers] of the snapshot have exactly the keys of the request's
    header map; under a matching key they hold the placeholder, under any
    other key the values of the header joined with commas. *)
Theorem NewHttp_Headers_lookup fields req :
  ∃ headers : gmap string string,
    Headers (NewHttp fields req).1 = Some headers ∧
    dom headers = dom (http.Header req) ∧
    ∀ k, headers !! k =
           (λ v, if isSecret fields k then "********" else Join v ",")
             <$> http.Header req !! k.
Proof.
  exists (joinHeaders (sanitizeValues fields (http.Header req))).
  assert (∀ k, joinHeaders (sanitizeValues fields (http.Header req)) !! k =
               (λ v, if isSecret fields k then "********" else Join v ",")
                 <$> http.Header req !! k) as Hlookup.
  { intros k. rewrite joinHeaders_lookup, sanitizeValues_lookup.
    destruct (http.Header req !! k) as [v|]; simpl; [|done].
    unfold redact. by destruct (isSecret fields k). }
  split; [done|]. split; [|done].
  apply set_eq. intros k. by rewrite !elem_of_dom, Hlookup, fmap_is_Some.
Qed.

(** X9. The snapshot leaves the request as it found it exactly when every
    header of the request whose name matches a fragment already holds the
    placeholder; the request differs after the call as soon as one such
    header holds anything else. *)
Theorem NewHttp_request_unchanged_iff fields req :
  (NewHttp fields req).2 = req ↔
    ∀ k v, http.Header req !! k = Some v → isSecret fields k = true →
           v = ["********"].
Proof.
  rewrite <- sanitizeValues_fixed. destruct req as [m u h host addr t].
  unfold NewHttp, http.set_Header. simpl. split.
  - intros E. by injection E.
  - intros E. by rewrite E.
Qed.

(** X10. A second snapshot of the same request finds the request as the
    first one left it and leaves it so; it has the same [headers], [query],
    [env] and [method] as the first, while its [cookies] are read from the
    header map that the first snapshot redacted. *)
Theorem NewHttp_again fields req :
  (NewHttp fields (NewHttp fields req).2).2 = (NewHttp fields req).2 ∧
  Headers (NewHttp fields (NewHttp fields req).2).1
    = Headers (NewHttp fields req).1 ∧
  Query (NewHttp fields (NewHttp fields req).2).1
    = Query (NewHttp fields req).1 ∧
  Env (NewHttp fields (NewHttp fields req).2).1 = Env (NewHttp fields req).1 ∧
  Method (NewHttp fields (NewHttp fields req).2).1
    = Method (NewHttp fields req).1 ∧
  Cookies (NewHttp fields (NewHttp fields req).2).1
    = http.Get (sanitizeValues fields (http.Header req)) "Cookie".
Proof.
  unfold NewHttp, http.set_Header. simpl.
  rewrite sanitizeValues_twice. by repeat split.
Qed.
(** X16. What is stored under matching keys never reaches the snapshot: two
    requests that differ only in the values of query parameters and of
    headers whose names match a fragment have the same snapshot, as long as
    the names [Cookie] and [X-Forwarded-Proto], which [NewHttp] reads before
    it redacts, match no fragment. *)
Theorem NewHttp_hides_secret_values fields req1 req2 :
  http.Method req1 = http.Method req2 →
  http.Host req1 = http.Host req2 →
  url.Path (http.URL req1) = url.Path (http.URL req2) →
  http.RemoteAddr req1 = http.RemoteAddr req2 →
  http.TLS req1 = http.TLS req2 →
  sameButSecrets fields (ParseQuery (url.RawQuery (http.URL req1)))
                        (ParseQuery (url.RawQuery (http.URL req2))) →
  sameButSecrets fields (http.Header req1) (http.Header req2) →
  isSecret fields "Cookie" = false →
  isSecret fields "X-Forwarded-Proto" = false →
  (NewHttp fields req1).1 = (NewHttp fields req2).1.
Proof.
  intros Hm Hh Hp Ha Ht [Hqd Hq] [Hhd Hhe] Hcookie Hproto.
  unfold NewHttp, isHttps, http.Get. cbn [fst].
  rewrite Hm, Hh, Hp, Ha, Ht, (Hhe _ Hcookie), (Hhe _ Hproto).
  rewrite (sanitizeValues_agree fields _ _ Hqd Hq).
  by rewrite (sanitizeValues_agree fields _ _ Hhd Hhe).
Qed.
End SnapshotProperties.

(** ** Further properties of the handlers *)

Section HandlerProperties.
Context {lib : GoLib} {raven : Raven}.

Implicit Types (handler : HandlerFunc) (w : World).

Lemma RecoveryHandler_unfold handler w :
  RecoveryHandler handler w =
    match handler w with
    | (w1, Panicked (Val v)) => report v w1
    | (w1, _) => (w1, Returned ())
    end.
Proof.
  unfold RecoveryHandler, deferRecover.
  by destruct (handler w) as [w1 [[]|[|v]]].
Qed.

Lemma ReportHandler_unfold handler w :
  ReportHandler handler w =
    match handler w with
    | (w1, Panicked (Val v)) => ((report v w1).1, Panicked (Val v))
    | (w1, _) => (w1, Returned ())
    end.
Proof.
  unfold ReportHandler, deferRecover.
  destruct (handler w) as [w1 [[]|[|v]]]; [done..|].
  destruct (report_spec v w1) as (packet & w2 & Hrep & _).
  unfold mbind, Go_bind. by rewrite Hrep.
Qed.

(** X11. The two wrappers leave the same state behind, whatever the handler
    does; they differ in how they end: [RecoveryHandler] always returns,
    [ReportHandler] panics exactly when the handler panicked with a value
    that is not nil, and then with that value. *)
Theorem handlers_differ_in_outcome_only handler w :
  (ReportHandler handler w).1 = (RecoveryHandler handler w).1 ∧
  (RecoveryHandler handler w).2 = Returned () ∧
  (ReportHandler handler w).2 =
    match (handler w).2 with
    | Panicked (Val v) => Panicked (Val v)
    | _ => Returned ()
    end.
Proof.
  rewrite RecoveryHandler_unfold, ReportHandler_unfold.
  destruct (handler w) as [w1 [[]|[|v]]]; [done..|].
  destruct (report_spec v w1) as (packet & w2 & Hrep & _).
  by rewrite Hrep.
Qed.

(** X12. Wrapping [RecoveryHandler(handler)] once more, in either wrapper,
    adds nothing: the inner wrapper has stopped every panic, so the outer one
    never reports. *)
Theorem RecoveryHandler_absorbs handler w :
  RecoveryHandler (RecoveryHandler handler) w = RecoveryHandler handler w ∧
  ReportHandler (RecoveryHandler handler) w = RecoveryHandler handler w.
Proof.
  rewrite (RecoveryHandler_unfold (RecoveryHandler handler)),
    (ReportHandler_unfold (RecoveryHandler handler)).
  rewrite RecoveryHandler_unfold.
  destruct (handler w) as [w1 [[]|[|v]]]; [done..|].
  destruct (report_spec v w1) as (packet & w2 & Hrep & _).
  by rewrite Hrep.
Qed.

(** X13. [RecoveryHandler(ReportHandler(handler))] reports a panic of the
    handler twice: the inner wrapper submits a packet, writes the status and
    panics again, the outer one submits a second packet with the same
    message, writes the status a second time and returns. *)
Theorem RecoveryHandler_of_ReportHandler_reports_twice handler w w1
    (v : value) :
  handler w = (w1, Panicked (Val v)) →
  ∃ packet1 packet2 w3,
    RecoveryHandler (ReportHandler handler) w = (w3, Returned ()) ∧
    captured w3 = captured w1 ++ [(packet1, None); (packet2, None)] ∧
    Message packet1 = Sprint v ∧ Message packet2 = Sprint v ∧
    response w3 = response w1 ++ [WriteHeaderCall 500; WriteHeaderCall 500].
Proof.
  intros Hh. rewrite RecoveryHandler_unfold, ReportHandler_unfold, Hh.
  destruct (report_spec v w1)
    as (packet1 & w2 & Hrep1 & Hc1 & Hm1 & _ & Hr1 & _).
  rewrite Hrep1. cbn [fst].
  destruct (report_spec v w2)
    as (packet2 & w3 & Hrep2 & Hc2 & Hm2 & _ & Hr2 & _).
  exists packet1, packet2, w3. rewrite Hrep2, Hc2, Hc1, Hr2, Hr1.
  by rewrite <- !(assoc_L (++)).
Qed.

(** X14. The packet of a reported panic carries the snapshot of the request
    as the handler left it, redacted with the fragments registered when the
    handler panicked; whoever catches the panic that [ReportHandler] raises
    again finds the header map of the request redacted by that snapshot, and
    the fragment list as the handler left it. *)
Theorem ReportHandler_snapshot_at_panic handler w w1 (v : value) :
  handler w = (w1, Panicked (Val v)) →
  ∃ packet w2,
    ReportHandler handler w = (w2, Panicked (Val v)) ∧
    last (captured w2) = Some (packet, None) ∧
    PacketRequest packet = (NewHttp (secretFields w1) (request w1)).1 ∧
    http.Header (request w2)
      = sanitizeValues (secretFields w1) (http.Header (request w1)) ∧
    secretFields w2 = secretFields w1.
Proof.
  intros Hh. rewrite ReportHandler_unfold, Hh.
  destruct (report_spec v w1)
    as (packet & w2 & Hrep & Hc & _ & Hp & _ & Hreq & Hs).
  exists packet, w2. rewrite Hrep. cbn [fst].
  split; [done|]. split; [by rewrite Hc, last_snoc|].
  split; [done|]. split; [by rewrite Hreq | done].
Qed.
End HandlerProperties.

(** ** The model on concrete requests *)

#[local] Existing Instance golib_instance.
#[local] Existing Instance client_instance.

Example ToLower_PASSWORD : ToLower "PASSWORD" = "password".
Proof. reflexivity. Qed.

Example SplitHostPort_tcp :
  SplitHostPort "203.0.113.5:54321" = Some ("203.0.113.5", "54321").
Proof. reflexivity. Qed.

Example SplitHostPort_ipv6 :
  SplitHostPort "[::1]:8080" = Some ("::1", "8080").
Proof. reflexivity. Qed.

Example SplitHostPort_malformed : SplitHostPort "not-an-address" = None.
Proof. reflexivity. Qed.

Example SplitHostPort_colons : SplitHostPort "::1:8080" = None.
Proof. reflexivity. Qed.

Example ParseQuery_Encode :
  Encode (sanitizeValues querySecretFields
            (ParseQuery "user=bob&Password=hunter2&tag=a+b&tag=c"))
  = "Password=%2A%2A%2A%2A%2A%2A%2A%2A&tag=a+b&tag=c&user=bob".
Proof. vm_compute. reflexivity. Qed.

(** Keys are matched whatever their case, and so are fragments. *)
Example sanitizeValues_ignores_case :
  sanitizeValues querySecretFields
    {[ "PASSWORD" := ["a"]; "Password" := ["b"];
       "UserPassphrase" := ["c"; "d"]; "user" := ["bob"] ]}
  = {[ "PASSWORD" := ["********"]; "Password" := ["********"];
       "UserPassphrase" := ["********"]; "user" := ["bob"] ]} ∧
  sanitizeValues (AddSanitizeField "TOKEN" querySecretFields)
    {[ "x-token" := ["t"]; "user" := ["bob"] ]}
  = {[ "x-token" := ["********"]; "user" := ["bob"] ]}.
Proof. split; vm_compute; reflexivity. Qed.

(** The snapshot of [login_request]. *)
Example NewHttp_login_request :
  (NewHttp querySecretFields login_request).1 = {|
    URL := "http://example.com/login";
    Method := "POST";
    Query := "Password=%2A%2A%2A%2A%2A%2A%2A%2A&user=bob";
    Cookies := "session=abc; password=x";
    Headers := Some {[ "Accept" := "text/html,text/plain";
                       "Cookie" := "session=abc; password=x";
                       "X-Api-Secret" := "********" ]};
    Env := Some {[ "REMOTE_ADDR" := "203.0.113.5"; "REMOTE_PORT" := "54321" ]};
    Data := None;
  |}.
Proof. vm_compute. reflexivity. Qed.

(** The scheme, for a request with a TLS connection state, for one that a
    proxy forwarded from HTTPS, and for one that has neither. *)
Example NewHttp_scheme :
  URL (NewHttp querySecretFields
         {| http.Method := "GET";
            http.URL := {| url.Path := "/"; url.RawQuery := "a=b" |};
            http.Header := ∅; http.Host := "example.com";
            http.RemoteAddr := "not-an-address";
            http.TLS := Some {| tls.HandshakeComplete := true |} |}).1
    = "https://example.com/" ∧
  URL (NewHttp querySecretFields
         {| http.Method := "GET";
            http.URL := {| url.Path := "/"; url.RawQuery := "a=b" |};
            http.Header := {[ "X-Forwarded-Proto" := ["https"] ]};
            http.Host := "example.com";
            http.RemoteAddr := "not-an-address";
            http.TLS := None |}).1
    = "https://example.com/" ∧
  URL (NewHttp querySecretFields
         {| http.Method := "GET";
            http.URL := {| url.Path := "/"; url.RawQuery := "a=b" |};
            http.Header := {[ "X-Forwarded-Proto" := ["http"] ]};
            http.Host := "example.com";
            http.RemoteAddr := "not-an-address";
            http.TLS := None |}).1
    = "http://example.com/".
Proof. repeat split. Qed.

(** A peer address that does not split leaves [env] nil. *)
Example NewHttp_Env_malformed :
  Env (NewHttp querySecretFields
         {| http.Method := "GET";
            http.URL := {| url.Path := "/"; url.RawQuery := EmptyString |};
            http.Header := ∅; http.Host := "example.com";
            http.RemoteAddr := "not-an-address";
            http.TLS := None |}).1 = None.
Proof. reflexivity. Qed.

(** A handler that panics with ["boom"], wrapped either way. *)
Example RecoveryHandler_boom :
  (RecoveryHandler boom serving).2 = Returned () ∧
  Message <$> (captured (RecoveryHandler boom serving).1).*1 = ["boom"] ∧
  response (RecoveryHandler boom serving).1 = [WriteHeaderCall 500].
Proof. repeat split. Qed.

Example ReportHandler_boom :
  (ReportHandler boom serving).2 = Panicked (Val (client.String_ "boom")) ∧
  Message <$> (captured (ReportHandler boom serving).1).*1 = ["boom"] ∧
  response (ReportHandler boom serving).1 = [WriteHeaderCall 500].
Proof. repeat split. Qed.

(** A handler that returns: the wrappers add nothing to what it did. *)
Example handlers_ok :
  RecoveryHandler ok serving = ok serving ∧
  ReportHandler ok serving = ok serving ∧
  captured (ok serving).1 = [] ∧
  response (ok serving).1 = [WriteHeaderCall 200].
Proof. repeat split. Qed.

(** ** The claims on concrete requests *)

(** C1 on [passphrase_form]: the key [UserPassphrase] matches the fragment
    [passphrase], the key [user] matches none. *)
Lemma sanitizeValues_redacts_matching_keys_witness :
  sanitizeValues querySecretFields passphrase_form !! "UserPassphrase"
    = Some ["********"] ∧
  sanitizeValues querySecretFields passphrase_form !! "user" = Some ["bob"].
Proof.
  destruct (sanitizeValues_redacts_matching_keys
              querySecretFields passphrase_form) as (Hredacted & Hkept & _).
  split.
  - apply (Hredacted "UserPassphrase" ["c"; "d"] "passphrase" "user" EmptyString).
    + reflexivity.
    + right. left.
    + reflexivity.
  - rewrite (Hkept "user"); [reflexivity|].
    intros Hmatch. apply isSecret_spec in Hmatch. vm_compute in Hmatch.
    discriminate Hmatch.
Defined.

(** C6 on [token_header], when the fragment [Token] is registered. *)
Lemma AddSanitizeField_monotonic_witness :
  AddSanitizeField "Token" querySecretFields !! 1%nat = Some "passphrase" ∧
  sanitizeValues (AddSanitizeField "Token" querySecretFields) token_header
    !! "X-Password" = Some ["********"] ∧
  sanitizeValues (AddSanitizeField "Token" querySecretFields) token_header
    !! "X-Auth-TOKEN" = Some ["********"].
Proof.
  destruct (AddSanitizeField_monotonic
              "Token" querySecretFields token_header)
    as (Hkept & Hstill & Hnew).
  split; [|split].
  - apply Hkept. reflexivity.
  - apply Hstill. vm_compute. reflexivity.
  - apply (Hnew "X-Auth-TOKEN" ["t"] "x-auth-" EmptyString); reflexivity.
Defined.




(** C9, as the spec states it, fails for a request whose method is empty:
    the [method] of its snapshot is empty. *)
Lemma NewHttp_empty_Method :
  Method (NewHttp querySecretFields client_request).1 = EmptyString.
Proof. reflexivity. Qed.

(** C4 fails on the code: after the snapshot of [login_request], the header
    [X-Api-Secret] of the request itself holds the placeholder. *)
Theorem NewHttp_redacts_request_header_in_place :
  http.Header login_request !! "X-Api-Secret" = Some ["s3cr3t"] ∧
  http.Header (NewHttp querySecretFields login_request).2 !! "X-Api-Secret"
    = Some ["********"].
Proof. split; vm_compute; reflexivity. Qed.

(** With the fragment [cookie] registered, the first snapshot has the cookies
    of the request and rewrites the request's [Cookie] header, so that a
    second snapshot of the same request has the placeholder for cookies. *)
Example NewHttp_twice_Cookies :
  let fields := AddSanitizeField "cookie" querySecretFields in
  let first := NewHttp fields login_request in
  let second := NewHttp fields first.2 in
  Cookies first.1 = "session=abc; password=x" ∧
  Headers first.1 ≫= lookup "Cookie" = Some "********" ∧
  Cookies second.1 = "********".
Proof. repeat split; vm_compute; reflexivity. Qed.

(** ** The further properties on concrete requests *)

(** X1 for the runtime [alternating]. *)
Lemma sanitizeValues_any_order_witness :
  sanitizeValuesIn alternating 0 querySecretFields token_header
    = sanitizeValues querySecretFields token_header.
Proof.
  apply sanitizeValues_any_order. intros n q. unfold alternating.
  destruct (Nat.even n); [apply reverse_Permutation | reflexivity].
Defined.

(** X2 for [shuffled_fields] and the initial fragments. *)
Lemma sanitizeValues_fragment_set_witness :
  sanitizeValues shuffled_fields token_header
    = sanitizeValues querySecretFields token_header.
Proof.
  apply sanitizeValues_fragment_set. intros lowered.
  change (ToLower <$> shuffled_fields)
    with ["secret"; "passwd"; "passphrase"; "password"; "secret"].
  change (ToLower <$> querySecretFields)
    with ["password"; "passphrase"; "passwd"; "secret"].
  rewrite !elem_of_cons, !elem_of_nil. tauto.
Defined.

(** X3 when [PASSWORD] is registered next to [password]. *)
Lemma AddSanitizeField_again_witness :
  sanitizeValues (AddSanitizeField "PASSWORD" querySecretFields) token_header
    = sanitizeValues querySecretFields token_header.
Proof.
  apply AddSanitizeField_again.
  change ("password" ∈ ["password"; "passphrase"; "passwd"; "secret"]).
  left.
Defined.

(** X4 for the library's [ToLower]. *)
Lemma AddSanitizeField_empty_redacts_all_witness :
  sanitizeValues (AddSanitizeField EmptyString querySecretFields) token_header
    = (λ _, ["********"]) <$> token_header.
Proof. apply AddSanitizeField_empty_redacts_all. reflexivity. Defined.

(** X6 for two forms that differ in the password. *)
Lemma sanitizeValues_hides_secret_values_witness :
  sanitizeValues querySecretFields form_hunter2
    = sanitizeValues querySecretFields form_swordfish.
Proof.
  apply sanitizeValues_hides_secret_values.
  - unfold form_hunter2, form_swordfish. by rewrite !dom_insert_L.
  - intros k Hk. destruct (decide (k = "password")) as [->|Hne].
    + vm_compute in Hk. discriminate Hk.
    + unfold form_hunter2, form_swordfish.
      rewrite !(lookup_insert_ne _ "password" k) by (intros E; by apply Hne).
      reflexivity.
Defined.

(** X13 on the handler that panics with ["boom"]. *)
Lemma RecoveryHandler_of_ReportHandler_reports_twice_witness :
  ∃ packet1 packet2 w3,
    RecoveryHandler (ReportHandler boom) serving = (w3, Returned ()) ∧
    captured w3 = [(packet1, None); (packet2, None)] ∧
    Message packet1 = "boom" ∧ Message packet2 = "boom" ∧
    response w3 = [WriteHeaderCall 500; WriteHeaderCall 500].
Proof.
  exact (RecoveryHandler_of_ReportHandler_reports_twice
           boom serving serving (client.String_ "boom") eq_refl).
Defined.

(** X14 on the handler that panics with ["boom"]. *)
Lemma ReportHandler_snapshot_at_panic_witness :
  ∃ packet w2,
    ReportHandler boom serving
      = (w2, Panicked (Val (raven := client_instance) (client.String_ "boom"))) ∧
    last (captured w2) = Some (packet, None) ∧
    PacketRequest packet = (NewHttp querySecretFields login_request).1 ∧
    http.Header (request w2)
      = sanitizeValues querySecretFields (http.Header login_request) ∧
    secretFields w2 = querySecretFields.
Proof.
  exact (ReportHandler_snapshot_at_panic
           boom serving serving (client.String_ "boom") eq_refl).
Defined.

(** X16 for [login_request] and [login_request_swordfish]. *)
Lemma NewHttp_hides_secret_values_witness :
  (NewHttp querySecretFields login_request).1
    = (NewHttp querySecretFields login_request_swordfish).1.
Proof.
  apply NewHttp_hides_secret_values; try reflexivity.
  - change (sameButSecrets querySecretFields
              ({[ "user" := ["bob"]; "Password" := ["hunter2"] ]} : Values)
              ({[ "user" := ["bob"]; "Password" := ["swordfish"] ]} : Values)).
    split; [by rewrite !dom_insert_L|].
    intros k Hk. destruct (decide (k = "Password")) as [->|Hne].
    + vm_compute in Hk. discriminate Hk.
    + destruct (decide ("user" = k)) as [<-|Hu]; [reflexivity|].
      rewrite !(lookup_insert_ne _ "user" k) by exact Hu.
      rewrite !lookup_singleton_ne by (intros E; apply Hne; by symmetry).
      reflexivity.
  - split; [by unfold login_request, login_request_swordfish; simpl;
               rewrite !dom_insert_L|].
    intros k Hk. destruct (decide (k = "X-Api-Secret")) as [->|Hne].
    + vm_compute in Hk. discriminate Hk.
    + unfold login_request, login_request_swordfish. simpl.
      destruct (decide ("Accept" = k)) as [<-|Ha]; [reflexivity|].
      rewrite !(lookup_insert_ne _ "Accept" k) by exact Ha.
      destruct (decide ("Cookie" = k)) as [<-|Hc]; [reflexivity|].
      rewrite !(lookup_insert_ne _ "Cookie" k) by exact Hc.
      rewrite !lookup_singleton_ne by (intros E; apply Hne; by symmetry).
      reflexivity.
Defined.
